(** * The OriginPodNodeEnvironment admission plugin

    A shallow embedding of
    [vendor/github.com/openshift/origin/pkg/project/apiserver/admission/nodeenv/admission.go]
    and the properties of its decision procedure [admit].

    Go maps ([map[string]string]) are modelled by their contents, as
    [gmap string string]: equality of two such maps is equality of their
    key/value pairs, and [size] is Go's [len]. *)

From stdpp Require Import gmap strings list fin_maps.

Open Scope string_scope.

(** ** k8s.io/apimachinery/pkg/runtime/schema *)
Module schema.

Record GroupResource := mkGroupResource
  { Group : string;
    Resource : string }.

Record GroupVersionResource := mkGroupVersionResource
  { gvrGroup : string;
    gvrVersion : string;
    gvrResource : string }.

(** [func (gvr GroupVersionResource) GroupResource() GroupResource] *)
Definition GroupResource_of (gvr : GroupVersionResource) : GroupResource :=
  {| Group := gvrGroup gvr; Resource := gvrResource gvr |}.

#[global] Instance GroupResource_eq_dec : EqDecision GroupResource.
Proof. solve_decision. Defined.

End schema.

(** ** Go errors, and k8s.io/apimachinery/pkg/api/errors *)
Module apierrors.

Inductive StatusReason :=
| StatusReasonForbidden
| StatusReasonNotFound
| StatusReasonInternalError.

(** An [error] value is either a plain message ([fmt.Errorf] without verbs)
    or an API status error.  A status error is kept structured: its reason,
    the resource and object name of its details, and the error it was built
    from (which the Go code renders into the message). *)
Inductive error :=
| errorString (msg : string)
| StatusError (reason : StatusReason) (qualifiedResource : schema.GroupResource)
    (name : string) (err : error).

(** [fmt.Errorf(msg)] for a format string without verbs. *)
Definition Errorf (msg : string) : error := errorString msg.

(** [apierrors.NewForbidden(qualifiedResource, name, err)] *)
Definition NewForbidden (qualifiedResource : schema.GroupResource)
    (name : string) (err : error) : error :=
  StatusError StatusReasonForbidden qualifiedResource name err.

(** [apierrors.IsForbidden(err)] *)
Definition IsForbidden (e : error) : bool :=
  match e with
  | StatusError StatusReasonForbidden _ _ _ => true
  | _ => false
  end.

(** A Go call returning [(value, error)]. *)
Inductive result (A : Type) :=
| Ok (a : A)
| Err (e : error).
Arguments Ok {A} a.
Arguments Err {A} e.

End apierrors.

(** ** k8s.io/kubernetes/pkg/apis/core *)
Module kapi.

Record ObjectMeta := mkObjectMeta
  { Name : string;
    Namespace : string;
    Labels : gmap string string;
    Annotations : gmap string string }.

(** The fields of [PodSpec] other than [NodeSelector] stand for all the
    fields [admit] never names. *)
Record PodSpec := mkPodSpec
  { RestartPolicy : string;
    NodeSelector : gmap string string;
    ServiceAccountName : string;
    NodeName : string;
    Hostname : string }.

Record PodStatus := mkPodStatus
  { Phase : string;
    Message : string }.

Record Pod := mkPod
  { PodMeta : ObjectMeta;
    Spec : PodSpec;
    Status : PodStatus }.

Record NamespaceT := mkNamespace
  { NamespaceMeta : ObjectMeta }.

(** The payload of an admission request: a [runtime.Object], of which
    [admit] only distinguishes whether it is a [*kapi.Pod]. *)
Inductive Object :=
| NilObject
| PodObject (pod : Pod)
| NamespaceObject (ns : NamespaceT)
| OtherObject (kind : string).

(** The core API group is the empty group, so [kapi.Resource(r)] is
    [GroupResource{Group: "", Resource: r}]. *)
Definition GroupName : string := "".

Definition Resource (resource : string) : schema.GroupResource :=
  {| schema.Group := GroupName; schema.Resource := resource |}.

(** The assignment [pod.Spec.NodeSelector = m]. *)
Definition set_NodeSelector (m : gmap string string) (pod : Pod) : Pod :=
  {| PodMeta := PodMeta pod;
     Spec := {| RestartPolicy := RestartPolicy (Spec pod);
                NodeSelector := m;
                ServiceAccountName := ServiceAccountName (Spec pod);
                NodeName := NodeName (Spec pod);
                Hostname := Hostname (Spec pod) |};
     Status := Status pod |}.

End kapi.

(** ** github.com/openshift/origin/pkg/util/labelselector *)
Module labelselector.

(** Modelled from the spec: [labelselector.Conflicts] is not among the
    sources.  It is true iff there exists a key present in both maps with
    differing values. *)
Definition Conflicts (labels1 labels2 : gmap string string) : bool :=
  bool_decide
    (map_Exists (λ k v, is_Some (labels2 !! k) ∧ labels2 !! k ≠ Some v) labels1).

(** Modelled from the spec: [labelselector.Merge] is not among the sources.
    It returns a map containing every key from both maps, a set-union keyed
    by key identity; a key of both is taken once.  (Which value such a key
    gets when the two differ is not said; [admit] only merges maps that do
    not conflict, see [Merge_comm].) *)
Definition Merge (labels1 labels2 : gmap string string) : gmap string string :=
  labels1 ∪ labels2.

End labelselector.

(** ** github.com/openshift/origin/pkg/project/cache *)
Module cache.

(** The project cache is a collaborator of which only the answers to three
    queries matter; it is taken as given, one answer per query. *)
Record ProjectCache := mkProjectCache
  { Running : bool;
    GetNamespace : string → apierrors.result kapi.NamespaceT;
    GetNodeSelectorMap :
      kapi.NamespaceT → apierrors.result (gmap string string) }.

End cache.

(** ** k8s.io/apiserver/pkg/admission *)
Module admission.

Inductive Operation := Create | Update | Delete | Connect.

(** [admission.Attributes], without [GetObject]: the object is a pointer,
    its target lives in the [Store] below. *)
Record Attributes := mkAttributes
  { GetResource : schema.GroupVersionResource;
    GetSubresource : string;
    GetNamespace : string;
    GetName : string;
    GetOperation : Operation }.

End admission.

(** ** The plugin: package nodeenv *)
Module nodeenv.
Import apierrors.

Definition KubeProjectNodeSelector : string :=
  "scheduler.alpha.kubernetes.io/node-selector".

(** [podNodeEnvironment] after [SetProjectCache]: the handler and the
    client are not read by [admit]. *)
Record podNodeEnvironment := mkPodNodeEnvironment
  { cache : cache.ProjectCache }.

(** *** Effects

    What [admit] does besides computing its result: it calls out to the
    project cache and to the label-selector helpers, and it may assign the
    pod's node selector.  Each of these is recorded, in order. *)
Inductive Event :=
| Call_Running
| Call_GetNamespace (name : string)
| Call_GetNodeSelectorMap (ns : kapi.NamespaceT)
| Call_Conflicts (labels1 labels2 : gmap string string)
| Call_Merge (labels1 labels2 : gmap string string)
| Assign_NodeSelector (m : gmap string string).

(** The object the request's attributes point to, and the events so far. *)
Record Store := mkStore
  { payload : kapi.Object;
    events : list Event }.

(** A statement either falls through with a value or leaves the function
    with [return err] ([None] is Go's [nil]). *)
Inductive Flow (A : Type) :=
| Continue (x : A)
| Return (err : option error).
Arguments Continue {A} x.
Arguments Return {A} err.

Definition Exec (A : Type) : Type := Store → Flow A * Store.

#[global] Instance Exec_ret : MRet Exec := λ A x s, (Continue x, s).

#[global] Instance Exec_bind : MBind Exec := λ A B k c s,
  match c s with
  | (Continue x, s') => k x s'
  | (Return err, s') => (Return err, s')
  end.

(** [return err] *)
Definition return_ {A} (err : option error) : Exec A := λ s, (Return err, s).

(** [if cond { body }] *)
Definition If_ (cond : bool) (body : Exec unit) : Exec unit :=
  if cond then body else mret ().

Definition emit (e : Event) : Exec unit :=
  λ s, (Continue (), {| payload := payload s; events := events s ++ [e] |}).

(** [a.GetObject()] *)
Definition GetObject : Exec kapi.Object := λ s, (Continue (payload s), s).

(** A write to the object the attributes point to. *)
Definition put_payload (obj : kapi.Object) : Exec unit :=
  λ s, (Continue (), {| payload := obj; events := events s |}).

(** [pod.Spec.NodeSelector = m], on the pod the attributes point to. *)
Definition assign_NodeSelector (pod : kapi.Pod) (m : gmap string string)
    : Exec unit :=
  emit (Assign_NodeSelector m) ;;
  put_payload (kapi.PodObject (kapi.set_NodeSelector m pod)).

Definition call_Running (c : cache.ProjectCache) : Exec bool :=
  emit Call_Running ;; mret (cache.Running c).

Definition call_GetNamespace (c : cache.ProjectCache) (name : string)
    : Exec (result kapi.NamespaceT) :=
  emit (Call_GetNamespace name) ;; mret (cache.GetNamespace c name).

Definition call_GetNodeSelectorMap (c : cache.ProjectCache)
    (ns : kapi.NamespaceT) : Exec (result (gmap string string)) :=
  emit (Call_GetNodeSelectorMap ns) ;; mret (cache.GetNodeSelectorMap c ns).

Definition call_Conflicts (labels1 labels2 : gmap string string) : Exec bool :=
  emit (Call_Conflicts labels1 labels2) ;;
  mret (labelselector.Conflicts labels1 labels2).

Definition call_Merge (labels1 labels2 : gmap string string)
    : Exec (gmap string string) :=
  emit (Call_Merge labels1 labels2) ;;
  mret (labelselector.Merge labels1 labels2).

(** [_, ok := namespace.ObjectMeta.Annotations[KubeProjectNodeSelector]],
    guarded by [len(namespace.ObjectMeta.Annotations) > 0]. *)
Definition has_KubeProjectNodeSelector (namespace : kapi.NamespaceT) : bool :=
  let annotations := kapi.Annotations (kapi.NamespaceMeta namespace) in
  if bool_decide (0 < size annotations)
  then bool_decide (is_Some (annotations !! KubeProjectNodeSelector))
  else false.

(** [func (p *podNodeEnvironment) admit(a admission.Attributes,
    mutationAllowed bool) (err error)], here [admit_].

    - [return err] after the [Running] test returns the named result, which
      is still [nil] there.
    - The pod is read through the snapshot [pod] taken at the type
      assertion: nothing writes to it before the one assignment at the end.
    - In [!mutationAllowed && len(Merge(..)) != len(..)] the merge is only
      evaluated when [mutationAllowed] is false. *)
Definition admit_ (p : podNodeEnvironment) (a : admission.Attributes)
    (mutationAllowed : bool) : Exec unit :=
  let resource := schema.GroupResource_of (admission.GetResource a) in
  If_ (bool_decide (resource ≠ kapi.Resource "pods")) (return_ None) ;;
  If_ (bool_decide (admission.GetSubresource a ≠ "")) (return_ None) ;;
  obj ← GetObject ;
  match obj with
  | kapi.PodObject pod =>
    let name := kapi.Name (kapi.PodMeta pod) in
    running ← call_Running (cache p) ;
    If_ (negb running) (return_ None) ;;
    r ← call_GetNamespace (cache p) (admission.GetNamespace a) ;
    match r with
    | Err err => return_ (Some (NewForbidden resource name err))
    | Ok namespace =>
      If_ (has_KubeProjectNodeSelector namespace) (return_ None) ;;
      r ← call_GetNodeSelectorMap (cache p) namespace ;
      match r with
      | Err err => return_ (Some err)
      | Ok projectNodeSelector =>
        let podNodeSelector := kapi.NodeSelector (kapi.Spec pod) in
        conflicts ← call_Conflicts projectNodeSelector podNodeSelector ;
        If_ conflicts
          (return_ (Some (NewForbidden resource name (Errorf
             "pod node label selector conflicts with its project node label selector")))) ;;
        differs ←
          (if mutationAllowed then mret false
           else merged ← call_Merge projectNodeSelector podNodeSelector ;
                mret (bool_decide (size merged ≠ size podNodeSelector))) ;
        If_ differs
          (return_ (Some (NewForbidden resource name (Errorf
             "pod node label selector does not extend project node label selector")))) ;;
        merged ← call_Merge projectNodeSelector podNodeSelector ;
        assign_NodeSelector pod merged ;;
        return_ None
      end
    end
  | _ => return_ None
  end.

(** [func (p *podNodeEnvironment) Admit(a admission.Attributes) (err error)] *)
Definition Admit (p : podNodeEnvironment) (a : admission.Attributes)
    : Exec unit :=
  admit_ p a true.

(** [func (p *podNodeEnvironment) Validate(a admission.Attributes) (err error)] *)
Definition Validate (p : podNodeEnvironment) (a : admission.Attributes)
    : Exec unit :=
  admit_ p a false.

(** Calling a method on a request whose object is [obj]: the returned error
    ([None] for [nil]), the object afterwards, and the events. *)
Definition call (body : Exec unit) (obj : kapi.Object)
    : option error * kapi.Object * list Event :=
  match body {| payload := obj; events := [] |} with
  | (Return err, s) => (err, payload s, events s)
  | (Continue _, s) => (None, payload s, events s)
  end.

End nodeenv.

(** ** Requests and outcomes *)
Module request.
Import apierrors nodeenv.

Abbreviation selector_of pod := (kapi.NodeSelector (kapi.Spec pod)).
Abbreviation resource_of a := (schema.GroupResource_of (admission.GetResource a)).

(** The request passes the applicability gate ([pods], no sub-resource) and
    the plugin's cache answers: it is running, it knows the namespace, the
    namespace does not carry the opt-out annotation, and its node selector
    is [projectNodeSelector]. *)
Record applicable (p : podNodeEnvironment) (a : admission.Attributes)
    (namespace : kapi.NamespaceT) (projectNodeSelector : gmap string string)
    : Prop := mkApplicable
  { app_resource : resource_of a = kapi.Resource "pods";
    app_subresource : admission.GetSubresource a = "";
    app_running : cache.Running (cache p) = true;
    app_namespace :
      cache.GetNamespace (cache p) (admission.GetNamespace a) = Ok namespace;
    app_no_opt_out :
      kapi.Annotations (kapi.NamespaceMeta namespace)
        !! KubeProjectNodeSelector = None;
    app_selector :
      cache.GetNodeSelectorMap (cache p) namespace = Ok projectNodeSelector }.

(** The events of every applicable request up to and including the
    conflict check. *)
Definition events_to_conflicts (a : admission.Attributes)
    (namespace : kapi.NamespaceT) (P R : gmap string string) : list Event :=
  [Call_Running; Call_GetNamespace (admission.GetNamespace a);
   Call_GetNodeSelectorMap namespace; Call_Conflicts P R].

(** The Forbidden error [admit] builds for pod [pod] from message [msg]. *)
Definition forbidden (pod : kapi.Pod) (msg : string) : error :=
  NewForbidden (kapi.Resource "pods") (kapi.Name (kapi.PodMeta pod))
    (Errorf msg).

(** The three components of what [call] returns. *)
Definition error_of (r : option error * kapi.Object * list Event)
    : option error := r.1.1.
Definition object_of (r : option error * kapi.Object * list Event)
    : kapi.Object := r.1.2.
Definition events_of (r : option error * kapi.Object * list Event)
    : list Event := r.2.

(** Every key/value pair of [P] is a pair of [R]. *)
Definition contains (R P : gmap string string) : Prop :=
  ∀ k v, P !! k = Some v → R !! k = Some v.

End request.

(** ** The scenarios of the specification, as concrete requests *)
Module scenario.
Import apierrors nodeenv.

Definition pods : admission.Attributes :=
  {| admission.GetResource :=
       {| schema.gvrGroup := ""; schema.gvrVersion := "v1";
          schema.gvrResource := "pods" |};
     admission.GetSubresource := "";
     admission.GetNamespace := "project";
     admission.GetName := "web";
     admission.GetOperation := admission.Create |}.

Definition pods_status : admission.Attributes :=
  {| admission.GetResource := admission.GetResource pods;
     admission.GetSubresource := "status";
     admission.GetNamespace := "project";
     admission.GetName := "web";
     admission.GetOperation := admission.Create |}.

Definition pod_with (selector : gmap string string) : kapi.Pod :=
  {| kapi.PodMeta :=
       {| kapi.Name := "web"; kapi.Namespace := "project";
          kapi.Labels := {[ "app" := "web" ]}; kapi.Annotations := ∅ |};
     kapi.Spec :=
       {| kapi.RestartPolicy := "Always"; kapi.NodeSelector := selector;
          kapi.ServiceAccountName := "default"; kapi.NodeName := "";
          kapi.Hostname := "web" |};
     kapi.Status := {| kapi.Phase := "Pending"; kapi.Message := "" |} |}.

Definition namespace_with (annotations : gmap string string)
    : kapi.NamespaceT :=
  {| kapi.NamespaceMeta :=
       {| kapi.Name := "project"; kapi.Namespace := "";
          kapi.Labels := ∅; kapi.Annotations := annotations |} |}.

Definition project : kapi.NamespaceT :=
  namespace_with {[ "openshift.io/node-selector" := "zone=east" ]}.

Definition opted_out : kapi.NamespaceT :=
  namespace_with {[ KubeProjectNodeSelector := "zone=west" ]}.

Definition east : gmap string string := {[ "zone" := "east" ]}.
Definition west : gmap string string := {[ "zone" := "west" ]}.
Definition ssd : gmap string string := {[ "disk" := "ssd" ]}.
Definition east_ssd : gmap string string :=
  <[ "disk" := "ssd" ]> {[ "zone" := "east" ]}.

Definition not_found : error :=
  StatusError StatusReasonNotFound
    {| schema.Group := ""; schema.Resource := "namespaces" |} "project"
    (errorString "namespace project does not exist").

Definition bad_selector : error := errorString "invalid selector".

(** A running cache knowing [project], whose node selector is [east]. *)
Definition ready : podNodeEnvironment :=
  {| cache := {| cache.Running := true;
                 cache.GetNamespace := λ _, Ok project;
                 cache.GetNodeSelectorMap := λ _, Ok east |} |}.

(** The same cache before it is running. *)
Definition warming_up : podNodeEnvironment :=
  {| cache := {| cache.Running := false;
                 cache.GetNamespace := λ _, Ok project;
                 cache.GetNodeSelectorMap := λ _, Ok east |} |}.

Definition unknown_namespace : podNodeEnvironment :=
  {| cache := {| cache.Running := true;
                 cache.GetNamespace := λ _, Err not_found;
                 cache.GetNodeSelectorMap := λ _, Ok east |} |}.

Definition unparsable_selector : podNodeEnvironment :=
  {| cache := {| cache.Running := true;
                 cache.GetNamespace := λ _, Ok project;
                 cache.GetNodeSelectorMap := λ _, Err bad_selector |} |}.

Definition with_opt_out : podNodeEnvironment :=
  {| cache := {| cache.Running := true;
                 cache.GetNamespace := λ _, Ok opted_out;
                 cache.GetNodeSelectorMap := λ _, Ok east |} |}.

End scenario.

(** ** k8s.io/kubernetes/pkg/client/clientset_generated/internalclientset *)
Module kclientset.

(** The cluster client is an interface value of which the plugin calls no
    method: it is kept as a handle. *)
Record Interface := mkInterface
  { handle : nat }.

End kclientset.

(** ** Construction and initialization of the plugin

    The plugin as the admission chain holds it before and while its
    dependencies are injected: every field is a pointer or an interface and
    may be [nil] ([None]).  The setters have pointer receivers; here they
    return the plugin they leave behind. *)
Module wiring.
Import apierrors.

(** [admission.Handler]: the operations it was built for. *)
Record Handler := mkHandler
  { operations : list admission.Operation }.

(** [admission.NewHandler(ops...)] *)
Definition NewHandler (ops : list admission.Operation) : Handler :=
  {| operations := ops |}.

(** [type podNodeEnvironment struct]; the embedded [*admission.Handler] is
    the field [handler]. *)
Record podNodeEnvironment := mkPodNodeEnvironment
  { handler : option Handler;
    client : option kclientset.Interface;
    cache : option cache.ProjectCache }.

(** [func (p *podNodeEnvironment) SetProjectCache(c *cache.ProjectCache)] *)
Definition SetProjectCache (c : option cache.ProjectCache)
    (p : podNodeEnvironment) : podNodeEnvironment :=
  {| handler := handler p; client := client p; cache := c |}.

(** [func (q *podNodeEnvironment) SetInternalKubeClientSet(c
    kclientset.Interface)] *)
Definition SetInternalKubeClientSet (c : option kclientset.Interface)
    (q : podNodeEnvironment) : podNodeEnvironment :=
  {| handler := handler q; client := c; cache := cache q |}.

(** [func (p *podNodeEnvironment) ValidateInitialization() error] *)
Definition ValidateInitialization (p : podNodeEnvironment) : option error :=
  match cache p with
  | None =>
    Some (Errorf "project node environment plugin needs a project cache")
  | Some _ => None
  end.

(** [func NewPodNodeEnvironment() (admission.Interface, error)] *)
Definition NewPodNodeEnvironment : podNodeEnvironment * option error :=
  ({| handler := Some (NewHandler [admission.Create]);
      client := None;
      cache := None |},
   None).

(** What the plugin initializers of the admission chain do to a plugin: any
    number of calls of the two setters, in any order. *)
Inductive Injection :=
| InjectProjectCache (c : option cache.ProjectCache)
| InjectInternalKubeClientSet (c : option kclientset.Interface).

Definition inject (p : podNodeEnvironment) (i : Injection)
    : podNodeEnvironment :=
  match i with
  | InjectProjectCache c => SetProjectCache c p
  | InjectInternalKubeClientSet c => SetInternalKubeClientSet c p
  end.

Definition initialize (steps : list Injection) (p : podNodeEnvironment)
    : podNodeEnvironment :=
  foldl inject p steps.

(** Injections that leave the cache alone. *)
Definition is_client_injection (i : Injection) : bool :=
  match i with
  | InjectProjectCache _ => false
  | InjectInternalKubeClientSet _ => true
  end.

(** The plugin as [admit] sees it, once a cache has been injected. *)
Definition configured (p : podNodeEnvironment)
    : option nodeenv.podNodeEnvironment :=
  match cache p with
  | Some c => Some {| nodeenv.cache := c |}
  | None => None
  end.

End wiring.

(** ** Reading the events *)
Module trace.
Import nodeenv.



End trace.

(** * Properties *)

Import apierrors nodeenv request.

(** ** Selector algebra *)
Section SelectorAlgebra.
Implicit Types P R : gmap string string.

Lemma Conflicts_true_iff P R :
  labelselector.Conflicts P R = true ↔
  ∃ k v w, P !! k = Some v ∧ R !! k = Some w ∧ v ≠ w.
Proof.
  unfold labelselector.Conflicts.
  rewrite bool_decide_eq_true, map_Exists_lookup. split.
  - intros (k & v & HP & [w HR] & Hne). exists k, v, w.
    repeat split; [done..|]. intros ->. by rewrite HR in Hne.
  - intros (k & v & w & HP & HR & Hne). exists k, v.
    split; [done|]. rewrite HR. split; [by eexists|congruence].
Qed.

Lemma Conflicts_false_iff P R :
  labelselector.Conflicts P R = false ↔
  ∀ k v w, P !! k = Some v → R !! k = Some w → v = w.
Proof.
  rewrite <- not_true_iff_false, Conflicts_true_iff. split.
  - intros Hno k v w HP HR. destruct (decide (v = w)); [done|].
    exfalso. apply Hno. by exists k, v, w.
  - intros Hag (k & v & w & HP & HR & Hne). by apply Hne, (Hag k).
Qed.

Lemma Merge_dom P R :
  dom (labelselector.Merge P R) = dom P ∪ dom R.
Proof. unfold labelselector.Merge. apply dom_union_L. Qed.

Lemma Merge_has_key P R k :
  is_Some (labelselector.Merge P R !! k) ↔
  is_Some (P !! k) ∨ is_Some (R !! k).
Proof. rewrite <- !elem_of_dom, Merge_dom. set_solver. Qed.

Lemma Merge_lookup P R k v :
  labelselector.Conflicts P R = false →
  labelselector.Merge P R !! k = Some v ↔ P !! k = Some v ∨ R !! k = Some v.
Proof.
  intros Hno. rewrite Conflicts_false_iff in Hno.
  unfold labelselector.Merge. rewrite lookup_union_Some_raw. split.
  - intros [?|[_ ?]]; auto.
  - intros [?|HR]; [auto|].
    destruct (P !! k) as [w|] eqn:HP; [|auto].
    left. f_equal. by apply (Hno k).
Qed.

(** Without a conflict it does not matter which map is merged into which. *)
Lemma Merge_comm P R :
  labelselector.Conflicts P R = false →
  labelselector.Merge P R = labelselector.Merge R P.
Proof.
  intros Hno. apply map_eq. intros k. apply option_eq. intros v.
  rewrite Merge_lookup by done.
  unfold labelselector.Merge at 1. rewrite lookup_union_Some_raw.
  rewrite Conflicts_false_iff in Hno. split.
  - intros [HP|HR]; [|auto].
    destruct (R !! k) as [w|] eqn:HR; [|auto].
    left. f_equal. symmetry. by apply (Hno k).
  - intros [?|[_ ?]]; auto.
Qed.

Lemma contains_subseteq P R : contains R P ↔ P ⊆ R.
Proof. unfold contains. by rewrite map_subseteq_spec. Qed.

Lemma Merge_contained P R :
  contains R P → labelselector.Merge P R = R.
Proof.
  rewrite contains_subseteq. unfold labelselector.Merge.
  apply map_subseteq_union.
Qed.

(** The size test of the validating phase. *)
Lemma Merge_size_contains P R :
  labelselector.Conflicts P R = false →
  size (labelselector.Merge P R) = size R ↔ contains R P.
Proof.
  intros Hno. split.
  - intros Hsize k v HP.
    assert (dom R = dom P ∪ dom R) as Hdom.
    { apply set_subseteq_size_eq; [set_solver|].
      rewrite <- Merge_dom, !size_dom. lia. }
    assert (k ∈ dom R) as [w HR]%elem_of_dom.
    { rewrite Hdom. apply elem_of_union_l, elem_of_dom. by eexists. }
    rewrite Conflicts_false_iff in Hno.
    by rewrite (Hno k v w).
  - intros Hsub. by rewrite Merge_contained.
Qed.

End SelectorAlgebra.

(** ** Running [admit] *)

Ltac exec_unfold :=
  unfold call_Running, call_GetNamespace, call_GetNodeSelectorMap,
    call_Conflicts, call_Merge, assign_NodeSelector, If_, return_, emit,
    GetObject, put_payload, mbind, mret, Exec_bind, Exec_ret;
  cbn.

Ltac gate_passed :=
  rewrite ?(bool_decide_eq_false_2 (_ ≠ _)) by (intros Hne; by apply Hne).

Ltac no_such_event Hin :=
  repeat (apply elem_of_cons in Hin as [Hin|Hin]; [discriminate Hin|]);
  by apply elem_of_nil in Hin.

Ltac not_an_event :=
  let Hin := fresh "Hin" in intros ? Hin; no_such_event Hin.

Ltac only_listed :=
  let He := fresh "He" in
  intros ? He;
  repeat (apply elem_of_cons in He as [He|He]; [done|]);
  by apply elem_of_nil in He.

(** Closes the frame conditions on a path that assigns nothing and leaves
    the object in place. *)
Ltac unassigned :=
  split_and!;
  [ intros _; split; [done|not_an_event]
  | done
  | not_an_event
  | done ].

(** Wrapping an error as Forbidden gives another error. *)
Lemma NewForbidden_wraps e qualifiedResource name :
  e ≠ NewForbidden qualifiedResource name e.
Proof.
  unfold NewForbidden. induction e as [|? ? ? e IH]; [done|].
  intros Heq. injection Heq as -> -> -> Heq. by apply IH.
Qed.

Lemma set_NodeSelector_same pod :
  kapi.set_NodeSelector (selector_of pod) pod = pod.
Proof. by destruct pod as [? [] ?]. Qed.

Lemma has_KubeProjectNodeSelector_false namespace :
  kapi.Annotations (kapi.NamespaceMeta namespace)
    !! KubeProjectNodeSelector = None →
  has_KubeProjectNodeSelector namespace = false.
Proof.
  intros H. unfold has_KubeProjectNodeSelector. rewrite H.
  case_bool_decide; [|done]. apply bool_decide_eq_false. by intros [? ?].
Qed.

(** The length guard in front of the annotation lookup changes nothing. *)
Lemma has_KubeProjectNodeSelector_true namespace :
  is_Some (kapi.Annotations (kapi.NamespaceMeta namespace)
             !! KubeProjectNodeSelector) →
  has_KubeProjectNodeSelector namespace = true.
Proof.
  intros [v H]. unfold has_KubeProjectNodeSelector.
  rewrite bool_decide_eq_true_2.
  - apply bool_decide_eq_true. by eexists.
  - destruct (decide
      (size (kapi.Annotations (kapi.NamespaceMeta namespace)) = 0))
      as [H0|]; [|lia].
    apply map_size_empty_iff in H0. rewrite H0 in H.
    by rewrite lookup_empty in H.
Qed.

Section Admission.
Variable p : podNodeEnvironment.
Variable a : admission.Attributes.
Implicit Types (pod : kapi.Pod) (obj : kapi.Object).
Implicit Types (P R : gmap string string) (mutationAllowed : bool).

Lemma admit_other_resource mutationAllowed obj :
  resource_of a ≠ kapi.Resource "pods" →
  call (admit_ p a mutationAllowed) obj = (None, obj, []).
Proof.
  intros Hres. unfold call, admit_.
  rewrite (bool_decide_eq_true_2 _ Hres). by exec_unfold.
Qed.

Lemma admit_subresource mutationAllowed obj :
  admission.GetSubresource a ≠ "" →
  call (admit_ p a mutationAllowed) obj = (None, obj, []).
Proof.
  intros Hsub. unfold call, admit_.
  rewrite (bool_decide_eq_true_2 _ Hsub). exec_unfold.
  by case_bool_decide.
Qed.

Lemma admit_other_object mutationAllowed obj :
  (∀ pod, obj ≠ kapi.PodObject pod) →
  call (admit_ p a mutationAllowed) obj = (None, obj, []).
Proof.
  intros Hobj. unfold call, admit_. exec_unfold.
  repeat case_bool_decide; try done.
  destruct obj; try done. by destruct (Hobj pod).
Qed.

(** Everything an applicable request can lead to. *)
Lemma admit_applicable mutationAllowed pod namespace P :
  applicable p a namespace P →
  call (admit_ p a mutationAllowed) (kapi.PodObject pod) =
  if labelselector.Conflicts P (selector_of pod) then
    (Some (forbidden pod
       "pod node label selector conflicts with its project node label selector"),
     kapi.PodObject pod,
     events_to_conflicts a namespace P (selector_of pod))
  else if mutationAllowed then
    (None,
     kapi.PodObject
       (kapi.set_NodeSelector (labelselector.Merge P (selector_of pod)) pod),
     (events_to_conflicts a namespace P (selector_of pod) ++
      [Call_Merge P (selector_of pod);
       Assign_NodeSelector (labelselector.Merge P (selector_of pod))])%list)
  else if bool_decide (size (labelselector.Merge P (selector_of pod))
                       ≠ size (selector_of pod)) then
    (Some (forbidden pod
       "pod node label selector does not extend project node label selector"),
     kapi.PodObject pod,
     (events_to_conflicts a namespace P (selector_of pod) ++
      [Call_Merge P (selector_of pod)])%list)
  else
    (None,
     kapi.PodObject
       (kapi.set_NodeSelector (labelselector.Merge P (selector_of pod)) pod),
     (events_to_conflicts a namespace P (selector_of pod) ++
      [Call_Merge P (selector_of pod); Call_Merge P (selector_of pod);
       Assign_NodeSelector (labelselector.Merge P (selector_of pod))])%list).
Proof.
  intros [Hres Hsub Hrun Hns Hopt Hsel].
  unfold call, admit_. rewrite Hres, Hsub. gate_passed.
  exec_unfold. rewrite Hrun. cbn. rewrite Hns. cbn.
  rewrite (has_KubeProjectNodeSelector_false _ Hopt). cbn.
  rewrite Hsel. cbn.
  destruct (labelselector.Conflicts P (selector_of pod)); cbn; [done|].
  destruct mutationAllowed; cbn; [done|].
  by case_bool_decide.
Qed.

End Admission.

(** ** The decision procedure *)
Section Decisions.
Implicit Types (p : podNodeEnvironment) (a : admission.Attributes).
Implicit Types (pod : kapi.Pod) (obj : kapi.Object).
Implicit Types (P R : gmap string string) (mutationAllowed : bool).

(** C1.  Mutating phase: for an applicable request whose pod node selector
    does not conflict with the project node selector [P], [Admit] returns
    [nil] and has replaced the pod's node selector by [Merge P R]; that map
    has exactly the keys of [P] and of [R], with their values. *)
Theorem Admit_merges p a pod namespace P :
  applicable p a namespace P →
  labelselector.Conflicts P (selector_of pod) = false →
  call (Admit p a) (kapi.PodObject pod) =
    (None,
     kapi.PodObject
       (kapi.set_NodeSelector (labelselector.Merge P (selector_of pod)) pod),
     (events_to_conflicts a namespace P (selector_of pod) ++
      [Call_Merge P (selector_of pod);
       Assign_NodeSelector (labelselector.Merge P (selector_of pod))])%list)
  ∧ (∀ k, is_Some (labelselector.Merge P (selector_of pod) !! k) ↔
          is_Some (P !! k) ∨ is_Some (selector_of pod !! k))
  ∧ (∀ k v, labelselector.Merge P (selector_of pod) !! k = Some v ↔
            P !! k = Some v ∨ selector_of pod !! k = Some v).
Proof.
  intros Happ Hno. split; [|split].
  - unfold Admit. by rewrite (admit_applicable _ _ _ _ _ _ Happ), Hno.
  - intros k. apply Merge_has_key.
  - intros k v. by apply Merge_lookup.
Qed.

(** C2, as amended.  Validating phase: for an applicable request without
    conflict, if the size of [Merge P R] differs from the size of [R] then
    [Validate] denies with a Forbidden error built from "pod node label
    selector does not extend project node label selector" and leaves the pod
    as it was; otherwise it returns [nil], and the pod, whose node selector
    has been assigned [Merge P R], is equal to what it was. *)
Theorem Validate_extends p a pod namespace P :
  applicable p a namespace P →
  labelselector.Conflicts P (selector_of pod) = false →
  (size (labelselector.Merge P (selector_of pod)) ≠ size (selector_of pod) →
   call (Validate p a) (kapi.PodObject pod) =
     (Some (forbidden pod
        "pod node label selector does not extend project node label selector"),
      kapi.PodObject pod,
      (events_to_conflicts a namespace P (selector_of pod) ++
       [Call_Merge P (selector_of pod)])%list))
  ∧ (size (labelselector.Merge P (selector_of pod)) = size (selector_of pod) →
     call (Validate p a) (kapi.PodObject pod) =
       (None, kapi.PodObject pod,
        (events_to_conflicts a namespace P (selector_of pod) ++
         [Call_Merge P (selector_of pod); Call_Merge P (selector_of pod);
          Assign_NodeSelector (selector_of pod)])%list)).
Proof.
  intros Happ Hno. unfold Validate.
  rewrite (admit_applicable _ _ _ _ _ _ Happ), Hno. split; intros Hsize.
  - by rewrite (bool_decide_eq_true_2 _ Hsize).
  - rewrite bool_decide_eq_false_2 by (intros Hne; by apply Hne).
    apply Merge_size_contains, Merge_contained in Hsize; [|done].
    by rewrite Hsize, set_NodeSelector_same.
Qed.

(** C3, as amended.  In either phase, for an applicable request on which
    [Conflicts] is true, that is, some key is in both the project node
    selector and the pod node selector with differing values, [admit] denies
    with a Forbidden error built from "pod node label selector conflicts
    with its project node label selector", the pod left as it was. *)
Theorem admit_conflict p a mutationAllowed pod namespace P :
  applicable p a namespace P →
  labelselector.Conflicts P (selector_of pod) = true →
  (∃ k v w, P !! k = Some v ∧ selector_of pod !! k = Some w ∧ v ≠ w)
  ∧ call (admit_ p a mutationAllowed) (kapi.PodObject pod) =
      (Some (forbidden pod
         "pod node label selector conflicts with its project node label selector"),
       kapi.PodObject pod,
       events_to_conflicts a namespace P (selector_of pod))
  ∧ IsForbidden (forbidden pod
      "pod node label selector conflicts with its project node label selector")
    = true.
Proof.
  intros Happ Hyes. split; [by apply Conflicts_true_iff|]. split; [|done].
  by rewrite (admit_applicable _ _ _ _ _ _ Happ), Hyes.
Qed.


(** C5.  If the namespace the cache returns for the request carries the
    annotation [scheduler.alpha.kubernetes.io/node-selector], whatever its
    value, then in both phases [admit] returns [nil], the object is as it
    was, and [GetNodeSelectorMap] is not called; for a pod request on a
    running cache the cache is asked [Running] and [GetNamespace] only. *)
Theorem admit_opt_out p a mutationAllowed obj namespace :
  cache.GetNamespace (cache p) (admission.GetNamespace a) = Ok namespace →
  is_Some (kapi.Annotations (kapi.NamespaceMeta namespace)
             !! KubeProjectNodeSelector) →
  error_of (call (admit_ p a mutationAllowed) obj) = None
  ∧ object_of (call (admit_ p a mutationAllowed) obj) = obj
  ∧ (∀ ns, Call_GetNodeSelectorMap ns
           ∉ events_of (call (admit_ p a mutationAllowed) obj))
  ∧ (resource_of a = kapi.Resource "pods" →
     admission.GetSubresource a = "" →
     cache.Running (cache p) = true →
     ∀ pod, obj = kapi.PodObject pod →
     events_of (call (admit_ p a mutationAllowed) obj) =
       [Call_Running; Call_GetNamespace (admission.GetNamespace a)]).
Proof.
  intros Hns Hopt. apply has_KubeProjectNodeSelector_true in Hopt.
  unfold error_of, object_of, events_of, call, admit_. exec_unfold.
  rewrite Hns. cbn. rewrite Hopt. cbn.
  repeat case_bool_decide; cbn;
    [split_and!; [done|done|not_an_event|by intros]..|].
  destruct obj as [|pod| |]; cbn;
    [split_and!; [done|done|not_an_event|by intros]| |
     split_and!; [done|done|not_an_event|by intros]..].
  destruct (cache.Running (cache p)); cbn;
    split_and!; [done|done|not_an_event|done|done|done|not_an_event|by intros].
Qed.

(** C6.  For a pod request on a running cache: when [GetNamespace] fails,
    [admit] denies with a Forbidden error naming the resource and the pod
    and built from the lookup's error; when [GetNodeSelectorMap] fails, the
    error it returned is what [admit] returns, and no Forbidden error built
    from it is. *)
Theorem admit_cache_errors p a mutationAllowed pod :
  resource_of a = kapi.Resource "pods" →
  admission.GetSubresource a = "" →
  cache.Running (cache p) = true →
  (∀ e, cache.GetNamespace (cache p) (admission.GetNamespace a) = Err e →
     call (admit_ p a mutationAllowed) (kapi.PodObject pod) =
       (Some (NewForbidden (kapi.Resource "pods")
                (kapi.Name (kapi.PodMeta pod)) e),
        kapi.PodObject pod,
        [Call_Running; Call_GetNamespace (admission.GetNamespace a)])
     ∧ IsForbidden (NewForbidden (kapi.Resource "pods")
                      (kapi.Name (kapi.PodMeta pod)) e) = true)
  ∧ (∀ namespace e,
     cache.GetNamespace (cache p) (admission.GetNamespace a) = Ok namespace →
     kapi.Annotations (kapi.NamespaceMeta namespace)
       !! KubeProjectNodeSelector = None →
     cache.GetNodeSelectorMap (cache p) namespace = Err e →
     call (admit_ p a mutationAllowed) (kapi.PodObject pod) =
       (Some e, kapi.PodObject pod,
        [Call_Running; Call_GetNamespace (admission.GetNamespace a);
         Call_GetNodeSelectorMap namespace])
     ∧ (∀ qualifiedResource name, e ≠ NewForbidden qualifiedResource name e)
     ∧ (IsForbidden e = false →
        ∀ e', error_of (call (admit_ p a mutationAllowed) (kapi.PodObject pod))
              = Some e' → IsForbidden e' = false)).
Proof.
  intros Hres Hsub Hrun. split.
  - intros e Hns. split; [|done].
    unfold call, admit_. rewrite Hres, Hsub. gate_passed.
    exec_unfold. rewrite Hrun. cbn. rewrite Hns. cbn. done.
  - intros namespace e Hns Hopt Hsel.
    assert (call (admit_ p a mutationAllowed) (kapi.PodObject pod) =
       (Some e, kapi.PodObject pod,
        [Call_Running; Call_GetNamespace (admission.GetNamespace a);
         Call_GetNodeSelectorMap namespace])) as Hcall.
    { unfold call, admit_. rewrite Hres, Hsub. gate_passed.
      exec_unfold. rewrite Hrun. cbn. rewrite Hns. cbn.
      rewrite (has_KubeProjectNodeSelector_false _ Hopt). cbn.
      by rewrite Hsel. }
    split; [done|]. split.
    + intros qualifiedResource name. apply NewForbidden_wraps.
    + intros Hnot e'. rewrite Hcall. unfold error_of. cbn. by intros [= <-].
Qed.

(** C7.  While the cache is not running, [admit] returns [nil] in both
    phases and leaves the object as it was, whatever the selectors; the only
    thing it may do is ask [Running], and that is all it does for a pod
    request: no namespace lookup, no conflict check, no merge, no
    assignment. *)
Theorem admit_not_running p a mutationAllowed obj :
  cache.Running (cache p) = false →
  error_of (call (admit_ p a mutationAllowed) obj) = None
  ∧ object_of (call (admit_ p a mutationAllowed) obj) = obj
  ∧ (∀ e, e ∈ events_of (call (admit_ p a mutationAllowed) obj) →
          e = Call_Running)
  ∧ (resource_of a = kapi.Resource "pods" →
     admission.GetSubresource a = "" →
     ∀ pod, obj = kapi.PodObject pod →
     call (admit_ p a mutationAllowed) obj = (None, obj, [Call_Running])).
Proof.
  intros Hrun.
  unfold error_of, object_of, events_of, call, admit_. exec_unfold.
  rewrite Hrun. cbn.
  repeat case_bool_decide; cbn;
    [split_and!; [done|done|only_listed|by intros]..|].
  destruct obj; cbn; split_and!; try done; only_listed.
Qed.

(** C8.  A request whose resource is not [pods], or which is for a
    sub-resource, is allowed at once in both phases: [admit] returns [nil],
    the object is as it was, and nothing was called or assigned. *)
Theorem admit_not_pods p a mutationAllowed obj :
  resource_of a ≠ kapi.Resource "pods" ∨ admission.GetSubresource a ≠ "" →
  call (admit_ p a mutationAllowed) obj = (None, obj, []).
Proof.
  intros [Hres|Hsub].
  - by apply admit_other_resource.
  - by apply admit_subresource.
Qed.

(** C10.  A request for [pods], without sub-resource, whose object is not a
    pod is allowed in both phases: [admit] returns [nil], the object is as
    it was, and nothing was called or assigned. *)
Theorem admit_not_a_pod p a mutationAllowed obj :
  resource_of a = kapi.Resource "pods" →
  admission.GetSubresource a = "" →
  (∀ pod, obj ≠ kapi.PodObject pod) →
  call (admit_ p a mutationAllowed) obj = (None, obj, []).
Proof. intros _ _. apply admit_other_object. Qed.

(** C9.  In both phases, whatever the request and the cache: when [admit]
    denies, the object is as it was and nothing was assigned; when nothing
    was assigned, the object is as it was; an assignment only happens on a
    pod, with [nil] returned, and it sets the pod's node selector to the
    whole of [Merge P R] for the project node selector [P] the cache gave,
    every other field of the pod kept; and in the validating phase the
    object is as it was on every outcome. *)
Theorem admit_frame p a mutationAllowed obj :
  (∀ m pod,
     kapi.PodMeta (kapi.set_NodeSelector m pod) = kapi.PodMeta pod
     ∧ kapi.Status (kapi.set_NodeSelector m pod) = kapi.Status pod
     ∧ kapi.RestartPolicy (kapi.Spec (kapi.set_NodeSelector m pod))
       = kapi.RestartPolicy (kapi.Spec pod)
     ∧ kapi.ServiceAccountName (kapi.Spec (kapi.set_NodeSelector m pod))
       = kapi.ServiceAccountName (kapi.Spec pod)
     ∧ kapi.NodeName (kapi.Spec (kapi.set_NodeSelector m pod))
       = kapi.NodeName (kapi.Spec pod)
     ∧ kapi.Hostname (kapi.Spec (kapi.set_NodeSelector m pod))
       = kapi.Hostname (kapi.Spec pod)
     ∧ selector_of (kapi.set_NodeSelector m pod) = m)
  ∧ (is_Some (error_of (call (admit_ p a mutationAllowed) obj)) →
     object_of (call (admit_ p a mutationAllowed) obj) = obj
     ∧ ∀ m, Assign_NodeSelector m
            ∉ events_of (call (admit_ p a mutationAllowed) obj))
  ∧ ((∀ m, Assign_NodeSelector m
           ∉ events_of (call (admit_ p a mutationAllowed) obj)) →
     object_of (call (admit_ p a mutationAllowed) obj) = obj)
  ∧ (∀ m, Assign_NodeSelector m
          ∈ events_of (call (admit_ p a mutationAllowed) obj) →
     ∃ pod namespace P,
       obj = kapi.PodObject pod
       ∧ cache.GetNamespace (cache p) (admission.GetNamespace a)
         = Ok namespace
       ∧ cache.GetNodeSelectorMap (cache p) namespace = Ok P
       ∧ m = labelselector.Merge P (selector_of pod)
       ∧ error_of (call (admit_ p a mutationAllowed) obj) = None
       ∧ object_of (call (admit_ p a mutationAllowed) obj)
         = kapi.PodObject (kapi.set_NodeSelector m pod))
  ∧ (mutationAllowed = false →
     object_of (call (admit_ p a mutationAllowed) obj) = obj).
Proof.
  split; [done|].
  unfold error_of, object_of, events_of, call, admit_. exec_unfold.
  repeat case_bool_decide; cbn; [unassigned..|].
  destruct obj as [|pod| |]; cbn; [unassigned| |unassigned..].
  destruct (cache.Running (cache p)); cbn; [|unassigned].
  destruct (cache.GetNamespace (cache p) (admission.GetNamespace a))
    as [namespace|] eqn:Hns; cbn; [|unassigned].
  destruct (has_KubeProjectNodeSelector namespace); cbn; [unassigned|].
  destruct (cache.GetNodeSelectorMap (cache p) namespace)
    as [P|] eqn:Hsel; cbn; [|unassigned].
  destruct (labelselector.Conflicts P (selector_of pod)) eqn:Hno; cbn;
    [unassigned|].
  destruct mutationAllowed; cbn.
  - split_and!; [by intros [? [=]]| | |done].
    + intros Hnone. exfalso. eapply Hnone. by repeat constructor.
    + intros m Hin. exists pod, namespace, P.
      repeat (apply elem_of_cons in Hin as [Hin|Hin]; [try discriminate Hin|]);
        [|by apply elem_of_nil in Hin].
      by injection Hin as ->.
  - case_bool_decide as Hsize; cbn; [unassigned|].
    assert (labelselector.Merge P (selector_of pod) = selector_of pod) as HM.
    { apply Merge_contained, Merge_size_contains; [done|].
      destruct (decide (size (labelselector.Merge P (selector_of pod))
                        = size (selector_of pod))); [done|].
      by destruct Hsize. }
    split_and!; [by intros [? [=]]| | |].
    + intros _. by rewrite HM, set_NodeSelector_same.
    + intros m Hin. exists pod, namespace, P.
      repeat (apply elem_of_cons in Hin as [Hin|Hin]; [try discriminate Hin|]);
        [|by apply elem_of_nil in Hin].
      by injection Hin as ->.
    + intros _. by rewrite HM, set_NodeSelector_same.
Qed.

End Decisions.

(** ** The scenarios *)
Section Scenarios.
Import scenario.

Lemma ready_applicable : applicable ready pods project east.
Proof. by split. Defined.

(** Scenario A: default [{zone: east}], pod selector [{}], mutating phase. *)
Lemma Admit_merges_scenario_A :
  applicable ready pods project east
  ∧ labelselector.Conflicts east (selector_of (pod_with ∅)) = false
  ∧ call (Admit ready pods) (kapi.PodObject (pod_with ∅)) =
      (None, kapi.PodObject (pod_with east),
       [Call_Running; Call_GetNamespace "project";
        Call_GetNodeSelectorMap project; Call_Conflicts east ∅;
        Call_Merge east ∅; Assign_NodeSelector east]).
Proof.
  assert (labelselector.Conflicts east (selector_of (pod_with ∅)) = false)
    as Hno by (vm_compute; reflexivity).
  split; [exact ready_applicable|]. split; [exact Hno|].
  destruct (Admit_merges ready pods (pod_with ∅) project east
              ready_applicable Hno) as [-> _].
  vm_compute. reflexivity.
Defined.

(** Scenario D: default [{zone: east}], pod selector [{disk: ssd}],
    validating phase.  The message of the denial is not the one quoted for
    it: it speaks of node label selectors. *)
Lemma Validate_reason_scenario_D :
  applicable ready pods project east
  ∧ labelselector.Conflicts east (selector_of (pod_with ssd)) = false
  ∧ size (labelselector.Merge east (selector_of (pod_with ssd)))
    ≠ size (selector_of (pod_with ssd))
  ∧ error_of (call (Validate ready pods) (kapi.PodObject (pod_with ssd)))
    ≠ Some (forbidden (pod_with ssd)
              "pod node selector does not extend project node selector").
Proof.
  split; [exact ready_applicable|].
  split; [vm_compute; reflexivity|].
  split; [vm_compute; discriminate|].
  vm_compute. discriminate.
Qed.

Lemma Validate_extends_scenario_D :
  applicable ready pods project east
  ∧ labelselector.Conflicts east (selector_of (pod_with ssd)) = false
  ∧ call (Validate ready pods) (kapi.PodObject (pod_with ssd)) =
      (Some (forbidden (pod_with ssd)
         "pod node label selector does not extend project node label selector"),
       kapi.PodObject (pod_with ssd),
       [Call_Running; Call_GetNamespace "project";
        Call_GetNodeSelectorMap project; Call_Conflicts east ssd;
        Call_Merge east ssd]).
Proof.
  assert (labelselector.Conflicts east (selector_of (pod_with ssd)) = false)
    as Hno by (vm_compute; reflexivity).
  split; [exact ready_applicable|]. split; [exact Hno|].
  destruct (Validate_extends ready pods (pod_with ssd) project east
              ready_applicable Hno) as [Hdeny _].
  rewrite Hdeny; [reflexivity|]. vm_compute. discriminate.
Defined.

(** Scenario B: default [{zone: east}], pod selector [{zone: west}].  In
    neither phase is the message of the denial the one quoted for it, with
    or without its full stop. *)
Lemma admit_conflict_reason_scenario_B :
  applicable ready pods project east
  ∧ labelselector.Conflicts east (selector_of (pod_with west)) = true
  ∧ ∀ mutationAllowed,
      error_of (call (admit_ ready pods mutationAllowed)
                  (kapi.PodObject (pod_with west)))
      ≠ Some (forbidden (pod_with west)
                "pod node selector conflicts with project node selector.")
      ∧ error_of (call (admit_ ready pods mutationAllowed)
                    (kapi.PodObject (pod_with west)))
        ≠ Some (forbidden (pod_with west)
                  "pod node selector conflicts with project node selector").
Proof.
  split; [exact ready_applicable|].
  split; [vm_compute; reflexivity|].
  intros []; split; vm_compute; discriminate.
Qed.

Lemma admit_conflict_scenario_B :
  applicable ready pods project east
  ∧ labelselector.Conflicts east (selector_of (pod_with west)) = true
  ∧ call (Validate ready pods) (kapi.PodObject (pod_with west)) =
      (Some (forbidden (pod_with west)
         "pod node label selector conflicts with its project node label selector"),
       kapi.PodObject (pod_with west),
       [Call_Running; Call_GetNamespace "project";
        Call_GetNodeSelectorMap project; Call_Conflicts east west])
  ∧ call (Admit ready pods) (kapi.PodObject (pod_with west)) =
      call (Validate ready pods) (kapi.PodObject (pod_with west)).
Proof.
  assert (labelselector.Conflicts east (selector_of (pod_with west)) = true)
    as Hyes by (vm_compute; reflexivity).
  split; [exact ready_applicable|]. split; [exact Hyes|].
  destruct (admit_conflict ready pods false (pod_with west) project east
              ready_applicable Hyes) as (_ & Hval & _).
  destruct (admit_conflict ready pods true (pod_with west) project east
              ready_applicable Hyes) as (_ & Hadm & _).
  split; [exact Hval|].
  unfold Admit, Validate. by rewrite Hval, Hadm.
Defined.


(** The size test alone is no test of containment: on conflicting maps the
    sizes can agree. *)
Remark size_test_after_conflict_check :
  labelselector.Conflicts east west = true
  ∧ size (labelselector.Merge east west) = size west
  ∧ ¬ contains west east.
Proof.
  split; [vm_compute; reflexivity|]. split; [vm_compute; reflexivity|].
  intros Hsub. specialize (Hsub "zone" "east"). vm_compute in Hsub.
  by specialize (Hsub eq_refl).
Qed.

(** Scenario E: the namespace carries the opt-out annotation. *)
Lemma admit_opt_out_scenario_E :
  cache.GetNamespace (cache with_opt_out) (admission.GetNamespace pods)
  = Ok opted_out
  ∧ is_Some (kapi.Annotations (kapi.NamespaceMeta opted_out)
               !! KubeProjectNodeSelector)
  ∧ error_of (call (Validate with_opt_out pods)
                (kapi.PodObject (pod_with west))) = None
  ∧ events_of (call (Validate with_opt_out pods)
                 (kapi.PodObject (pod_with west)))
    = [Call_Running; Call_GetNamespace "project"].
Proof.
  assert (is_Some (kapi.Annotations (kapi.NamespaceMeta opted_out)
                     !! KubeProjectNodeSelector)) as Hopt.
  { exists "zone=west". vm_compute. reflexivity. }
  split; [reflexivity|]. split; [exact Hopt|].
  destruct (admit_opt_out with_opt_out pods false
              (kapi.PodObject (pod_with west)) opted_out eq_refl Hopt)
    as (Herr & _ & _ & Hev).
  split; [exact Herr|].
  exact (Hev eq_refl eq_refl eq_refl (pod_with west) eq_refl).
Defined.

(** A namespace the cache does not know, and a node selector it cannot
    derive. *)
Lemma admit_cache_errors_scenarios :
  error_of (call (Admit unknown_namespace pods)
              (kapi.PodObject (pod_with ∅)))
  = Some (NewForbidden (kapi.Resource "pods") "web" not_found)
  ∧ error_of (call (Admit unparsable_selector pods)
                (kapi.PodObject (pod_with ∅)))
    = Some bad_selector.
Proof.
  unfold Admit. split.
  - destruct (admit_cache_errors unknown_namespace pods true (pod_with ∅)
                eq_refl eq_refl eq_refl) as [Hns _].
    destruct (Hns not_found eq_refl) as [-> _]. reflexivity.
  - destruct (admit_cache_errors unparsable_selector pods true (pod_with ∅)
                eq_refl eq_refl eq_refl) as [_ Hsel].
    destruct (Hsel project bad_selector eq_refl) as [-> _];
      [vm_compute|..]; reflexivity.
Defined.

(** Scenario F: the cache is not running, the selectors conflict. *)
Lemma admit_not_running_scenario_F :
  cache.Running (cache warming_up) = false
  ∧ labelselector.Conflicts east (selector_of (pod_with west)) = true
  ∧ call (Validate warming_up pods) (kapi.PodObject (pod_with west))
    = (None, kapi.PodObject (pod_with west), [Call_Running]).
Proof.
  split; [reflexivity|]. split; [vm_compute; reflexivity|].
  destruct (admit_not_running warming_up pods false
              (kapi.PodObject (pod_with west)) eq_refl) as (_ & _ & _ & Hcall).
  exact (Hcall eq_refl eq_refl (pod_with west) eq_refl).
Defined.

(** A request for the [status] sub-resource of a pod. *)
Lemma admit_not_pods_subresource :
  (resource_of pods_status ≠ kapi.Resource "pods"
   ∨ admission.GetSubresource pods_status ≠ "")
  ∧ call (Admit ready pods_status) (kapi.PodObject (pod_with west))
    = (None, kapi.PodObject (pod_with west), []).
Proof.
  assert (resource_of pods_status ≠ kapi.Resource "pods"
          ∨ admission.GetSubresource pods_status ≠ "") as Hgate
    by (right; discriminate).
  split; [exact Hgate|].
  exact (admit_not_pods ready pods_status true
           (kapi.PodObject (pod_with west)) Hgate).
Defined.

(** A [pods] request whose object is a namespace. *)
Lemma admit_not_a_pod_namespace :
  call (Validate ready pods) (kapi.NamespaceObject project)
  = (None, kapi.NamespaceObject project, []).
Proof.
  apply (admit_not_a_pod ready pods false (kapi.NamespaceObject project)
           eq_refl eq_refl).
  discriminate.
Defined.

(** Validating a pod that already extends the default leaves it as it is,
    though its node selector has been assigned. *)
Lemma admit_frame_scenario_C :
  object_of (call (Validate ready pods) (kapi.PodObject (pod_with east_ssd)))
  = kapi.PodObject (pod_with east_ssd)
  ∧ Assign_NodeSelector east_ssd
    ∈ events_of (call (Validate ready pods)
                   (kapi.PodObject (pod_with east_ssd))).
Proof.
  split.
  - destruct (admit_frame ready pods false (kapi.PodObject (pod_with east_ssd)))
      as (_ & _ & _ & _ & Hsame).
    exact (Hsame eq_refl).
  - vm_compute. repeat constructor.
Defined.

End Scenarios.

(** * Further properties of the plugin *)

(** ** Every path of [admit] on a pod request *)
Section Paths.
Variable p : podNodeEnvironment.
Variable a : admission.Attributes.
Implicit Types (pod : kapi.Pod) (obj : kapi.Object).
Implicit Types (P R : gmap string string) (mutationAllowed : bool).

Lemma admit_pod_request mutationAllowed pod :
  resource_of a = kapi.Resource "pods" →
  admission.GetSubresource a = "" →
  call (admit_ p a mutationAllowed) (kapi.PodObject pod) =
  if cache.Running (cache p) then
    match cache.GetNamespace (cache p) (admission.GetNamespace a) with
    | Err e =>
      (Some (NewForbidden (kapi.Resource "pods")
               (kapi.Name (kapi.PodMeta pod)) e),
       kapi.PodObject pod,
       [Call_Running; Call_GetNamespace (admission.GetNamespace a)])
    | Ok namespace =>
      if has_KubeProjectNodeSelector namespace then
        (None, kapi.PodObject pod,
         [Call_Running; Call_GetNamespace (admission.GetNamespace a)])
      else
        match cache.GetNodeSelectorMap (cache p) namespace with
        | Err e =>
          (Some e, kapi.PodObject pod,
           [Call_Running; Call_GetNamespace (admission.GetNamespace a);
            Call_GetNodeSelectorMap namespace])
        | Ok P =>
          if labelselector.Conflicts P (selector_of pod) then
            (Some (forbidden pod
               "pod node label selector conflicts with its project node label selector"),
             kapi.PodObject pod,
             events_to_conflicts a namespace P (selector_of pod))
          else if mutationAllowed then
            (None,
             kapi.PodObject
               (kapi.set_NodeSelector
                  (labelselector.Merge P (selector_of pod)) pod),
             (events_to_conflicts a namespace P (selector_of pod) ++
              [Call_Merge P (selector_of pod);
               Assign_NodeSelector
                 (labelselector.Merge P (selector_of pod))])%list)
          else if bool_decide
                    (size (labelselector.Merge P (selector_of pod))
                     ≠ size (selector_of pod)) then
            (Some (forbidden pod
               "pod node label selector does not extend project node label selector"),
             kapi.PodObject pod,
             (events_to_conflicts a namespace P (selector_of pod) ++
              [Call_Merge P (selector_of pod)])%list)
          else
            (None,
             kapi.PodObject
               (kapi.set_NodeSelector
                  (labelselector.Merge P (selector_of pod)) pod),
             (events_to_conflicts a namespace P (selector_of pod) ++
              [Call_Merge P (selector_of pod); Call_Merge P (selector_of pod);
               Assign_NodeSelector
                 (labelselector.Merge P (selector_of pod))])%list)
        end
    end
  else (None, kapi.PodObject pod, [Call_Running]).
Proof.
  intros Hres Hsub.
  unfold call, admit_. rewrite Hres, Hsub. gate_passed. exec_unfold.
  destruct (cache.Running (cache p)); cbn; [|done].
  destruct (cache.GetNamespace (cache p) (admission.GetNamespace a))
    as [namespace|]; cbn; [|done].
  destruct (has_KubeProjectNodeSelector namespace); cbn; [done|].
  destruct (cache.GetNodeSelectorMap (cache p) namespace) as [P|]; cbn;
    [|done].
  destruct (labelselector.Conflicts P (selector_of pod)); cbn; [done|].
  destruct mutationAllowed; cbn; [done|].
  by case_bool_decide.
Qed.

(** A request is stopped at a gate, or it is a pod request. *)
Lemma admit_gates obj :
  (∀ mutationAllowed, call (admit_ p a mutationAllowed) obj = (None, obj, []))
  ∨ (resource_of a = kapi.Resource "pods"
     ∧ admission.GetSubresource a = ""
     ∧ ∃ pod, obj = kapi.PodObject pod).
Proof.
  destruct (decide (resource_of a = kapi.Resource "pods")) as [Hres|Hres];
    [|left; intros; by apply admit_other_resource].
  destruct (decide (admission.GetSubresource a = "")) as [Hsub|Hsub];
    [|left; intros; by apply admit_subresource].
  destruct obj as [|pod| |];
    [left; intros; apply admit_other_object; discriminate| |
     left; intros; apply admit_other_object; discriminate..].
  right. eauto.
Qed.

End Paths.

Lemma Conflicts_Merge P R :
  labelselector.Conflicts P R = false →
  labelselector.Conflicts P (labelselector.Merge P R) = false.
Proof.
  intros Hno. apply Conflicts_false_iff. intros k v w HP HM.
  apply (Merge_lookup P R k w Hno) in HM.
  destruct HM as [HP'|HR]; [congruence|].
  rewrite Conflicts_false_iff in Hno. by apply (Hno k).
Qed.

Lemma Merge_Merge P R :
  labelselector.Conflicts P R = false →
  labelselector.Merge P (labelselector.Merge P R) = labelselector.Merge P R.
Proof.
  intros Hno. apply Merge_contained. intros k v HP.
  apply (Merge_lookup P R k v Hno). by left.
Qed.

Lemma has_KubeProjectNodeSelector_absent namespace :
  has_KubeProjectNodeSelector namespace = false →
  kapi.Annotations (kapi.NamespaceMeta namespace)
    !! KubeProjectNodeSelector = None.
Proof.
  intros Hno.
  destruct (kapi.Annotations (kapi.NamespaceMeta namespace)
              !! KubeProjectNodeSelector) as [v|] eqn:Hv; [|done].
  rewrite has_KubeProjectNodeSelector_true in Hno; [done|by eexists].
Qed.

(** Finds which of the listed events [Hin] speaks of. *)
Ltac one_of_events Hin :=
  repeat (apply elem_of_cons in Hin as [Hin|Hin]; [try discriminate Hin|]);
  [|by apply elem_of_nil in Hin].

(** ** The two phases together *)
Section Phases.
Implicit Types (p : podNodeEnvironment) (a : admission.Attributes).
Implicit Types (pod : kapi.Pod) (obj : kapi.Object).
Implicit Types (P R : gmap string string) (mutationAllowed : bool).

(** X1.  What [Admit] has allowed stays allowed: on the object [Admit] left
    behind when it returned [nil], a second [Admit] as well as [Validate],
    against the same cache answers, returns [nil] and leaves that object as
    it is. *)
Theorem Admit_result_is_stable p a mutationAllowed obj :
  error_of (call (Admit p a) obj) = None →
  error_of (call (admit_ p a mutationAllowed)
              (object_of (call (Admit p a) obj))) = None
  ∧ object_of (call (admit_ p a mutationAllowed)
                 (object_of (call (Admit p a) obj)))
    = object_of (call (Admit p a) obj).
Proof.
  unfold Admit.
  destruct (admit_gates p a obj) as [Hstop|(Hres & Hsub & pod & ->)].
  { intros _. rewrite (Hstop true). cbn [object_of fst snd].
    by rewrite Hstop. }
  rewrite (admit_pod_request p a true) by done.
  destruct (cache.Running (cache p)) eqn:Hrun; cbn;
    [|intros _; rewrite admit_pod_request by done; by rewrite Hrun].
  destruct (cache.GetNamespace (cache p) (admission.GetNamespace a))
    as [namespace|] eqn:Hns; cbn; [|done].
  destruct (has_KubeProjectNodeSelector namespace) eqn:Hopt; cbn;
    [intros _; rewrite admit_pod_request by done;
     by rewrite Hrun, Hns, Hopt|].
  destruct (cache.GetNodeSelectorMap (cache p) namespace)
    as [P|] eqn:Hsel; cbn; [|done].
  destruct (labelselector.Conflicts P (selector_of pod)) eqn:Hno; cbn;
    [done|].
  intros _. rewrite admit_pod_request by done.
  rewrite Hrun, Hns, Hopt, Hsel. cbn.
  rewrite (Conflicts_Merge _ _ Hno), (Merge_Merge _ _ Hno).
  destruct mutationAllowed; [done|].
  by rewrite bool_decide_eq_false_2 by (intros Hne; by apply Hne).
Qed.

(** X2.  [Validate] is [Admit] made stricter: an error of [Admit] is the
    error of [Validate]; when [Validate] returns [nil] so does [Admit], and
    [Admit] leaves the object as it is; and the two only differ where
    [Admit] returns [nil] and [Validate] denies a pod for not extending the
    project node selector. *)
Theorem Validate_refines_Admit p a obj :
  (∀ e, error_of (call (Admit p a) obj) = Some e →
        error_of (call (Validate p a) obj) = Some e)
  ∧ (error_of (call (Validate p a) obj) = None →
     error_of (call (Admit p a) obj) = None
     ∧ object_of (call (Admit p a) obj) = obj)
  ∧ (error_of (call (Validate p a) obj) ≠ error_of (call (Admit p a) obj) →
     error_of (call (Admit p a) obj) = None
     ∧ ∃ pod, obj = kapi.PodObject pod
       ∧ error_of (call (Validate p a) obj) =
         Some (forbidden pod
           "pod node label selector does not extend project node label selector")).
Proof.
  unfold Admit, Validate.
  destruct (admit_gates p a obj) as [Hstop|(Hres & Hsub & pod & ->)].
  { rewrite !Hstop. by split_and!. }
  rewrite !admit_pod_request by done.
  destruct (cache.Running (cache p)); cbn; [|by split_and!].
  destruct (cache.GetNamespace (cache p) (admission.GetNamespace a))
    as [namespace|]; cbn; [|by split_and!].
  destruct (has_KubeProjectNodeSelector namespace); cbn; [by split_and!|].
  destruct (cache.GetNodeSelectorMap (cache p) namespace) as [P|]; cbn;
    [|by split_and!].
  destruct (labelselector.Conflicts P (selector_of pod)) eqn:Hno; cbn;
    [by split_and!|].
  case_bool_decide as Hsize; cbn.
  - split_and!; [done|done|]. intros _. split; [done|]. by exists pod.
  - split_and!; [done| |done]. intros _. split; [done|].
    assert (labelselector.Merge P (selector_of pod) = selector_of pod) as ->.
    { apply Merge_contained, Merge_size_contains; [done|].
      destruct (decide (size (labelselector.Merge P (selector_of pod))
                        = size (selector_of pod))); [done|].
      by destruct Hsize. }
    by rewrite set_NodeSelector_same.
Qed.

End Phases.

(** ** What [admit] returns, calls and reads *)
Section Reads.
Implicit Types (p : podNodeEnvironment) (a : admission.Attributes).
Implicit Types (pod : kapi.Pod) (obj : kapi.Object).
Implicit Types (P R : gmap string string) (mutationAllowed : bool).

(** X3.  [admit] only denies pod requests, on a running cache, and for one
    of four reasons: the namespace lookup failed (Forbidden, built from the
    lookup's error), deriving the project node selector failed (that error
    itself), the selectors conflict (Forbidden), or, in the validating phase
    only, the merged selector is larger than the pod's (Forbidden).  The
    Forbidden errors name the resource [pods] and the pod's own name. *)
Theorem admit_denials p a mutationAllowed obj e :
  error_of (call (admit_ p a mutationAllowed) obj) = Some e →
  resource_of a = kapi.Resource "pods"
  ∧ admission.GetSubresource a = ""
  ∧ cache.Running (cache p) = true
  ∧ ∃ pod, obj = kapi.PodObject pod
    ∧ ((∃ cause,
          cache.GetNamespace (cache p) (admission.GetNamespace a) = Err cause
          ∧ e = NewForbidden (kapi.Resource "pods")
                  (kapi.Name (kapi.PodMeta pod)) cause)
       ∨ (∃ namespace,
            cache.GetNamespace (cache p) (admission.GetNamespace a)
            = Ok namespace
            ∧ ((cache.GetNodeSelectorMap (cache p) namespace = Err e)
               ∨ ∃ P,
                   cache.GetNodeSelectorMap (cache p) namespace = Ok P
                   ∧ ((labelselector.Conflicts P (selector_of pod) = true
                       ∧ e = forbidden pod
                           "pod node label selector conflicts with its project node label selector")
                      ∨ (labelselector.Conflicts P (selector_of pod) = false
                         ∧ mutationAllowed = false
                         ∧ size (labelselector.Merge P (selector_of pod))
                           ≠ size (selector_of pod)
                         ∧ e = forbidden pod
                             "pod node label selector does not extend project node label selector"))))).
Proof.
  destruct (admit_gates p a obj) as [Hstop|(Hres & Hsub & pod & ->)].
  { by rewrite Hstop. }
  rewrite admit_pod_request by done.
  destruct (cache.Running (cache p)); cbn; [|done].
  destruct (cache.GetNamespace (cache p) (admission.GetNamespace a))
    as [namespace|cause]; cbn.
  2: { intros [= <-]. split_and!; [done..|]. exists pod. split; [done|].
       left. by exists cause. }
  destruct (has_KubeProjectNodeSelector namespace); cbn; [done|].
  destruct (cache.GetNodeSelectorMap (cache p) namespace) as [P|e'] eqn:Hsel;
    cbn.
  2: { intros [= <-]. split_and!; [done..|]. exists pod. split; [done|].
       right. exists namespace. split; [done|]. by left. }
  destruct (labelselector.Conflicts P (selector_of pod)) eqn:Hno; cbn.
  { intros [= <-]. split_and!; [done..|]. exists pod. split; [done|].
    right. exists namespace. split; [done|]. right. exists P.
    split; [done|]. by left. }
  destruct mutationAllowed; cbn; [done|].
  case_bool_decide as Hsize; cbn; [|done].
  intros [= <-]. split_and!; [done..|]. exists pod. split; [done|].
  right. exists namespace. split; [done|]. right. exists P.
  split; [done|]. by right.
Qed.

(** X4.  How [admit] uses its collaborators: it looks up no namespace but
    the request's, and only on a running cache; it derives the node selector
    of no namespace but the one that lookup returned, and only if that one
    lacks the opt-out annotation; and it checks and merges no maps but the
    derived project node selector and the pod's own node selector. *)
Theorem admit_cache_protocol p a mutationAllowed obj :
  (∀ name, Call_GetNamespace name
           ∈ events_of (call (admit_ p a mutationAllowed) obj) →
     name = admission.GetNamespace a ∧ cache.Running (cache p) = true)
  ∧ (∀ namespace, Call_GetNodeSelectorMap namespace
                  ∈ events_of (call (admit_ p a mutationAllowed) obj) →
     cache.GetNamespace (cache p) (admission.GetNamespace a) = Ok namespace
     ∧ kapi.Annotations (kapi.NamespaceMeta namespace)
         !! KubeProjectNodeSelector = None)
  ∧ (∀ P R, Call_Conflicts P R
            ∈ events_of (call (admit_ p a mutationAllowed) obj)
            ∨ Call_Merge P R
              ∈ events_of (call (admit_ p a mutationAllowed) obj) →
     ∃ pod namespace,
       obj = kapi.PodObject pod ∧ R = selector_of pod
       ∧ cache.GetNamespace (cache p) (admission.GetNamespace a)
         = Ok namespace
       ∧ cache.GetNodeSelectorMap (cache p) namespace = Ok P).
Proof.
  destruct (admit_gates p a obj) as [Hstop|(Hres & Hsub & pod & ->)].
  { rewrite Hstop. cbn. split_and!; [not_an_event..|].
    intros P R [Hin|Hin]; no_such_event Hin. }
  rewrite admit_pod_request by done.
  destruct (cache.Running (cache p)); cbn.
  2: { split_and!; [not_an_event..|].
       intros P R [Hin|Hin]; no_such_event Hin. }
  destruct (cache.GetNamespace (cache p) (admission.GetNamespace a))
    as [namespace|cause]; cbn.
  2: { split_and!; [|not_an_event|].
       - intros name Hin. one_of_events Hin. by injection Hin as ->.
       - intros P R [Hin|Hin]; no_such_event Hin. }
  destruct (has_KubeProjectNodeSelector namespace) eqn:Hopt; cbn.
  { split_and!; [|not_an_event|].
    - intros name Hin. one_of_events Hin. by injection Hin as ->.
    - intros P R [Hin|Hin]; no_such_event Hin. }
  apply has_KubeProjectNodeSelector_absent in Hopt.
  destruct (cache.GetNodeSelectorMap (cache p) namespace) as [P|e'] eqn:Hsel;
    cbn.
  2: { split_and!.
       - intros name Hin. one_of_events Hin. by injection Hin as ->.
       - intros ns Hin. one_of_events Hin. by injection Hin as ->.
       - intros P R [Hin|Hin]; no_such_event Hin. }
  assert (∀ evs : list Event,
    (∀ e, e ∈ evs → e = Call_Running
                    ∨ e = Call_GetNamespace (admission.GetNamespace a)
                    ∨ e = Call_GetNodeSelectorMap namespace
                    ∨ e = Call_Conflicts P (selector_of pod)
                    ∨ e = Call_Merge P (selector_of pod)
                    ∨ e = Assign_NodeSelector
                            (labelselector.Merge P (selector_of pod))) →
    (∀ name, Call_GetNamespace name ∈ evs →
       name = admission.GetNamespace a ∧ true = true)
    ∧ (∀ ns, Call_GetNodeSelectorMap ns ∈ evs →
         Ok namespace = Ok ns
         ∧ kapi.Annotations (kapi.NamespaceMeta ns)
             !! KubeProjectNodeSelector = None)
    ∧ (∀ P' R, Call_Conflicts P' R ∈ evs ∨ Call_Merge P' R ∈ evs →
         ∃ pod' ns,
           kapi.PodObject pod = kapi.PodObject pod' ∧ R = selector_of pod'
           ∧ Ok namespace = Ok ns
           ∧ cache.GetNodeSelectorMap (cache p) ns = Ok P')) as Hall.
  { intros evs Hevs. split_and!.
    - intros name Hin. apply Hevs in Hin.
      destruct Hin as [Hin|[Hin|[Hin|[Hin|[Hin|Hin]]]]]; try discriminate Hin.
      by injection Hin as ->.
    - intros ns Hin. apply Hevs in Hin.
      destruct Hin as [Hin|[Hin|[Hin|[Hin|[Hin|Hin]]]]]; try discriminate Hin.
      by injection Hin as ->.
    - intros P' R [Hin|Hin]; apply Hevs in Hin;
        destruct Hin as [Hin|[Hin|[Hin|[Hin|[Hin|Hin]]]]];
        try discriminate Hin; injection Hin as -> ->; by exists pod, namespace. }
  destruct (labelselector.Conflicts P (selector_of pod)); cbn;
    [|destruct mutationAllowed; cbn; [|case_bool_decide; cbn]];
    apply Hall; intros e Hin; unfold events_to_conflicts in Hin;
    cbn in Hin;
    repeat (apply elem_of_cons in Hin as [->|Hin]; [auto 10|]);
    by apply elem_of_nil in Hin.
Qed.

End Reads.

Section Inputs.
Implicit Types (p : podNodeEnvironment) (a : admission.Attributes).
Implicit Types (pod : kapi.Pod) (obj : kapi.Object).
Implicit Types (P R : gmap string string) (mutationAllowed : bool).

(** X5.  Of the request's attributes [admit] reads the group and resource,
    the sub-resource and the namespace, and nothing else: not the version,
    not the name, not the operation.  Two requests that agree on the three
    get the same error, object and events. *)
Theorem admit_reads_attributes p a1 a2 mutationAllowed obj :
  resource_of a1 = resource_of a2 →
  admission.GetSubresource a1 = admission.GetSubresource a2 →
  admission.GetNamespace a1 = admission.GetNamespace a2 →
  call (admit_ p a1 mutationAllowed) obj
  = call (admit_ p a2 mutationAllowed) obj.
Proof.
  intros Hres Hsub Hns. unfold call, admit_. by rewrite Hres, Hsub, Hns.
Qed.

(** X6.  Of the pod [admit] reads the name and the node selector, and
    nothing else: two pods that agree on both get the same error and the
    same events, whatever their labels, annotations, other spec fields and
    status. *)
Theorem admit_reads_pod p a mutationAllowed pod1 pod2 :
  kapi.Name (kapi.PodMeta pod1) = kapi.Name (kapi.PodMeta pod2) →
  selector_of pod1 = selector_of pod2 →
  error_of (call (admit_ p a mutationAllowed) (kapi.PodObject pod1))
  = error_of (call (admit_ p a mutationAllowed) (kapi.PodObject pod2))
  ∧ events_of (call (admit_ p a mutationAllowed) (kapi.PodObject pod1))
    = events_of (call (admit_ p a mutationAllowed) (kapi.PodObject pod2)).
Proof.
  intros Hname Hsel.
  destruct (decide (resource_of a = kapi.Resource "pods")) as [Hres|Hres];
    [|by rewrite !admit_other_resource].
  destruct (decide (admission.GetSubresource a = "")) as [Hsub|Hsub];
    [|by rewrite !admit_subresource].
  rewrite !admit_pod_request by done. unfold forbidden.
  rewrite Hname, Hsel.
  destruct (cache.Running (cache p)); cbn; [|done].
  destruct (cache.GetNamespace (cache p) (admission.GetNamespace a))
    as [namespace|]; cbn; [|done].
  destruct (has_KubeProjectNodeSelector namespace); cbn; [done|].
  destruct (cache.GetNodeSelectorMap (cache p) namespace) as [P|]; cbn;
    [|done].
  destruct (labelselector.Conflicts P (selector_of pod2)); cbn; [done|].
  destruct mutationAllowed; cbn; [done|].
  by case_bool_decide.
Qed.

(** X7.  [admit] never takes away from the pod's node selector: in both
    phases, whatever it returns, every key/value pair the pod's node
    selector had is a pair of the node selector the pod has afterwards, and
    a key it has afterwards was already there or is a key of the project
    node selector the cache gave. *)
Theorem admit_keeps_pod_selector p a mutationAllowed pod :
  ∃ pod',
    object_of (call (admit_ p a mutationAllowed) (kapi.PodObject pod))
    = kapi.PodObject pod'
    ∧ contains (selector_of pod') (selector_of pod)
    ∧ ∀ k, is_Some (selector_of pod' !! k) →
        is_Some (selector_of pod !! k)
        ∨ ∃ namespace P,
            cache.GetNamespace (cache p) (admission.GetNamespace a)
            = Ok namespace
            ∧ cache.GetNodeSelectorMap (cache p) namespace = Ok P
            ∧ is_Some (P !! k).
Proof.
  assert (∃ pod',
    kapi.PodObject pod = kapi.PodObject pod'
    ∧ contains (selector_of pod') (selector_of pod)
    ∧ ∀ k, is_Some (selector_of pod' !! k) →
        is_Some (selector_of pod !! k)
        ∨ ∃ namespace P,
            cache.GetNamespace (cache p) (admission.GetNamespace a)
            = Ok namespace
            ∧ cache.GetNodeSelectorMap (cache p) namespace = Ok P
            ∧ is_Some (P !! k)) as Hsame.
  { exists pod. split; [done|]. split; [by intros k v|]. by left. }
  destruct (admit_gates p a (kapi.PodObject pod))
    as [Hstop|(Hres & Hsub & _)]; [by rewrite Hstop|].
  rewrite admit_pod_request by done.
  destruct (cache.Running (cache p)); cbn; [|done].
  destruct (cache.GetNamespace (cache p) (admission.GetNamespace a))
    as [namespace|] eqn:Hns; cbn; [|done].
  destruct (has_KubeProjectNodeSelector namespace); cbn; [done|].
  destruct (cache.GetNodeSelectorMap (cache p) namespace) as [P|] eqn:Hsel;
    cbn; [|done].
  destruct (labelselector.Conflicts P (selector_of pod)) eqn:Hno; cbn;
    [done|].
  assert (∃ pod',
    kapi.PodObject
      (kapi.set_NodeSelector (labelselector.Merge P (selector_of pod)) pod)
    = kapi.PodObject pod'
    ∧ contains (selector_of pod') (selector_of pod)
    ∧ ∀ k, is_Some (selector_of pod' !! k) →
        is_Some (selector_of pod !! k)
        ∨ ∃ namespace' P',
            Ok namespace = Ok namespace'
            ∧ cache.GetNodeSelectorMap (cache p) namespace' = Ok P'
            ∧ is_Some (P' !! k)) as Hmerged.
  { eexists. split; [done|]. cbn. split.
    - intros k v HR. apply (Merge_lookup P _ k v Hno). by right.
    - intros k [HP|HR]%Merge_has_key; [right|by left].
      by exists namespace, P. }
  destruct mutationAllowed; cbn; [done|].
  by case_bool_decide.
Qed.


End Inputs.

(** ** Initialization *)
Section Initialization.
Import wiring.

Lemma initialize_snoc steps i (p : wiring.podNodeEnvironment) :
  initialize (steps ++ [i])%list p = inject (initialize steps p) i.
Proof. unfold initialize. by rewrite foldl_app. Qed.

Lemma initialize_handler steps (p : wiring.podNodeEnvironment) :
  handler (initialize steps p) = handler p.
Proof.
  induction steps as [|i steps IH] using rev_ind; [done|].
  rewrite initialize_snoc. by destruct i.
Qed.

(** The cache of a plugin after [steps], when no cache was there before. *)
Lemma initialize_cache steps (p : wiring.podNodeEnvironment) c :
  wiring.cache p = None →
  wiring.cache (initialize steps p) = Some c ↔
  ∃ before after,
    steps = (before ++ InjectProjectCache (Some c) :: after)%list
    ∧ Forall (λ i, is_client_injection i = true) after.
Proof.
  intros Hnew.
  induction steps as [|i steps IH] using rev_ind.
  { cbn. rewrite Hnew. split; [done|].
    intros (before & after & Heq & _). by destruct before. }
  rewrite initialize_snoc. destruct i as [c'|k]; cbn.
  - split.
    + intros ->. exists steps, []. by split.
    + intros (before & after & Heq & Hafter).
      destruct after as [|j after _] using rev_ind.
      * apply app_inj_tail in Heq as [_ Heq]. by injection Heq.
      * rewrite app_comm_cons, app_assoc in Heq.
        apply app_inj_tail in Heq as [_ <-].
        apply Forall_app in Hafter as [_ Hj].
        apply Forall_inv in Hj. discriminate Hj.
  - rewrite IH. split.
    + intros (before & after & -> & Hafter).
      exists before, (after ++ [InjectInternalKubeClientSet k])%list.
      split; [by rewrite <- app_assoc|].
      apply Forall_app. split; [done|]. by apply Forall_singleton.
    + intros (before & after & Heq & Hafter).
      destruct after as [|j after _] using rev_ind.
      * by apply app_inj_tail in Heq as [_ Heq].
      * rewrite app_comm_cons, app_assoc in Heq.
        apply app_inj_tail in Heq as [-> _].
        apply Forall_app in Hafter as [Hafter _]. by exists before, after.
Qed.

(** X8.  A new plugin, after any sequence of calls of its two setters,
    passes [ValidateInitialization] exactly when some call of
    [SetProjectCache] with a cache that is not [nil] is followed by no
    further call of [SetProjectCache]; that cache is then the one [admit]
    consults.  Otherwise the error is "project node environment plugin needs
    a project cache".  No injected client makes a difference, and the
    handler stays the one for [Create]. *)
Theorem ValidateInitialization_after_injections steps :
  NewPodNodeEnvironment.2 = None
  ∧ handler (initialize steps NewPodNodeEnvironment.1)
    = Some (NewHandler [admission.Create])
  ∧ (ValidateInitialization (initialize steps NewPodNodeEnvironment.1) = None
     ∨ ValidateInitialization (initialize steps NewPodNodeEnvironment.1)
       = Some (Errorf "project node environment plugin needs a project cache"))
  ∧ (ValidateInitialization (initialize steps NewPodNodeEnvironment.1) = None
     ↔ ∃ before c after,
         steps = (before ++ InjectProjectCache (Some c) :: after)%list
         ∧ Forall (λ i, is_client_injection i = true) after
         ∧ configured (initialize steps NewPodNodeEnvironment.1)
           = Some {| nodeenv.cache := c |}).
Proof.
  split; [done|]. split; [by rewrite initialize_handler|].
  unfold ValidateInitialization, configured.
  split; [destruct (wiring.cache _); [by left|by right]|].
  pose proof (initialize_cache steps NewPodNodeEnvironment.1) as Hcache.
  destruct (wiring.cache (initialize steps NewPodNodeEnvironment.1))
    as [c|]; split.
  - intros _. destruct (proj1 (Hcache c eq_refl) eq_refl)
      as (before & after & Heq & Hafter).
    by exists before, c, after.
  - done.
  - done.
  - intros (before & c & after & Heq & Hafter & _).
    assert (None = Some c) as Hnone; [|done].
    apply (Hcache c eq_refl). by exists before, after.
Qed.

End Initialization.

(** ** The scenarios, continued *)
Section MoreScenarios.
Import scenario.

(** Scenario A, then the validating phase on the pod it left. *)
Lemma Admit_result_is_stable_scenario_A :
  error_of (call (Admit ready pods) (kapi.PodObject (pod_with ∅))) = None
  ∧ object_of (call (Admit ready pods) (kapi.PodObject (pod_with ∅)))
    = kapi.PodObject (pod_with east)
  ∧ error_of (call (Validate ready pods)
                (object_of (call (Admit ready pods)
                              (kapi.PodObject (pod_with ∅))))) = None.
Proof.
  assert (error_of (call (Admit ready pods) (kapi.PodObject (pod_with ∅)))
          = None) as Hnil by (vm_compute; reflexivity).
  split; [exact Hnil|]. split; [vm_compute; reflexivity|].
  exact (proj1 (Admit_result_is_stable ready pods false
                  (kapi.PodObject (pod_with ∅)) Hnil)).
Defined.

(** Scenario D is a denial of the fourth kind. *)
Lemma admit_denials_scenario_D :
  error_of (call (admit_ ready pods false) (kapi.PodObject (pod_with ssd)))
  = Some (forbidden (pod_with ssd)
      "pod node label selector does not extend project node label selector")
  ∧ cache.Running (cache ready) = true.
Proof.
  assert (error_of (call (admit_ ready pods false)
                      (kapi.PodObject (pod_with ssd)))
          = Some (forbidden (pod_with ssd)
      "pod node label selector does not extend project node label selector"))
    as Hdeny by (vm_compute; reflexivity).
  split; [exact Hdeny|].
  exact (proj1 (proj2 (proj2 (admit_denials ready pods false
                                (kapi.PodObject (pod_with ssd)) _ Hdeny)))).
Defined.

(** An update of a pod named otherwise, through another API version, is
    decided like scenario B. *)
Lemma admit_reads_attributes_scenario_B :
  call (Admit ready
          {| admission.GetResource :=
               {| schema.gvrGroup := ""; schema.gvrVersion := "v1beta3";
                  schema.gvrResource := "pods" |};
             admission.GetSubresource := "";
             admission.GetNamespace := "project";
             admission.GetName := "db";
             admission.GetOperation := admission.Update |})
       (kapi.PodObject (pod_with west))
  = call (Admit ready pods) (kapi.PodObject (pod_with west)).
Proof.
  exact (admit_reads_attributes ready _ pods true
           (kapi.PodObject (pod_with west)) eq_refl eq_refl eq_refl).
Defined.

(** A pod with other labels, service account and status is decided like the
    pod of scenario D. *)
Lemma admit_reads_pod_scenario_D :
  error_of (call (Validate ready pods)
    (kapi.PodObject
       {| kapi.PodMeta :=
            {| kapi.Name := "web"; kapi.Namespace := "project";
               kapi.Labels := {[ "app" := "db" ]};
               kapi.Annotations := {[ "owner" := "ops" ]} |};
          kapi.Spec :=
            {| kapi.RestartPolicy := "Never"; kapi.NodeSelector := ssd;
               kapi.ServiceAccountName := "builder"; kapi.NodeName := "n1";
               kapi.Hostname := "db" |};
          kapi.Status :=
            {| kapi.Phase := "Running"; kapi.Message := "ok" |} |}))
  = error_of (call (Validate ready pods) (kapi.PodObject (pod_with ssd))).
Proof.
  exact (proj1 (admit_reads_pod ready pods false _ (pod_with ssd)
                  eq_refl eq_refl)).
Defined.

End MoreScenarios.
